(** * init_blend.py: save the open document next to the working directory

    The script under study is

<<
    import bpy, os
    filepath = os.path.join(os.getcwd(), "my_scene.blend")
    bpy.ops.wm.save_as_mainfile(filepath=filepath)
    print(f"Saved {filepath}")
    # no sys.exit() -> Blender will stay open
>>

    It runs inside a host application (Blender) and talks to three things:
    the process (its working directory), the host (the save operator) and
    the standard output.  The embedding keeps these three apart: the script
    is a small program over an effect signature, and an interpreter threads
    an explicit world through it, recording every call in a trace.

    Taken from the runtime rather than from the script: both imports
    succeed (the host runs the script), [os.path] is [posixpath] and
    strings are sequences of characters.  The host's operator may change
    the host, write its own report to standard output, and raise.

    Two interpreters are given.  [run] is the script on a runtime that
    serves it: [os.getcwd] answers with the working directory and [print]
    appends its argument and a line feed to standard output.  [run_in]
    takes the runtime as a parameter, with the faults of these two calls:
    [os.getcwd] raises when the working directory has been removed, [print]
    raises when standard output does not take the text.  The two agree on
    a runtime without faults. *)

From Stdlib Require Import String Ascii List Bool ZArith.
From Stdlib Require Import PeanoNat Lia.
Import ListNotations.
Local Open Scope string_scope.

Set Implicit Arguments.

(** ** Strings as Python uses them here *)

Module Str.

(** [s.startswith(p)] *)
Definition startswith (s p : string) : bool := String.prefix p s.

(** [s.endswith(p)] *)
Fixpoint endswith (s p : string) : bool :=
  if String.eqb s p then true
  else match s with
       | EmptyString => false
       | String _ r => endswith r p
       end.

(** The line feed that [print] appends. *)
Definition LF : ascii := "010"%char.
Definition newline : string := String LF EmptyString.




End Str.

(** ** [os.path] on a POSIX host

    The two functions of [posixpath] the script and its claims need.
    [join] is the two-argument case of the library's loop over the
    remaining components. *)

Module posixpath.

Definition sep : string := "/".

(** [posixpath.isabs] *)
Definition isabs (s : string) : bool := Str.startswith s sep.

(** [posixpath.join(a, b)]: a component that starts with the separator
    (or an empty accumulated path) restarts the path; a separator is
    inserted unless the path already ends with one. *)
Definition join (a b : string) : string :=
  if Str.startswith b sep || String.eqb a "" then b
  else if Str.endswith a sep then a ++ b
  else a ++ sep ++ b.

End posixpath.

(** ** The host application *)

(** What the script sees of [bpy]: one operator.  It takes the destination,
    may change the host (document, disk) and either returns the operator's
    result set or raises; [save_report] is what the operator itself writes
    to standard output during that call (its info or error line). *)
Class Host : Type := {
  host_state : Type;
  host_error : Type;
  op_result  : Type;
  save_as_mainfile : string -> host_state -> (host_error + op_result) * host_state;
  save_report : string -> host_state -> string
}.

(** What the runtime raises from [os.getcwd] and [print]. *)
Inductive runtime_error : Type :=
| FileNotFoundError      (* os.getcwd: the working directory is gone *)
| UnicodeEncodeError     (* print: the text does not fit the stream's encoding *)
| StreamError.           (* print: the stream is closed or broken *)

(** Exceptions that can leave a script: [SystemExit], which the host obeys
    by shutting down, the errors of host operators and those of the
    runtime. *)
Inductive pyexn {H : Host} : Type :=
| SystemExit (code : Z)
| HostError (e : host_error)
| Raised (e : runtime_error).

(** ** The world a run acts on *)

Record world {H : Host} : Type := mkWorld {
  w_cwd     : string;                    (* the process's working directory *)
  w_argv    : list string;               (* sys.argv *)
  w_environ : list (string * string);    (* os.environ *)
  w_stdout  : string;                    (* characters written to sys.stdout *)
  w_host    : host_state                 (* the host: open document, disk *)
}.

Definition set_stdout {H : Host} (w : world) (s : string) : world :=
  {| w_cwd := w_cwd w; w_argv := w_argv w; w_environ := w_environ w;
     w_stdout := s; w_host := w_host w |}.

Definition set_host {H : Host} (w : world) (h : host_state) : world :=
  {| w_cwd := w_cwd w; w_argv := w_argv w; w_environ := w_environ w;
     w_stdout := w_stdout w; w_host := h |}.

(** The world after the host's save operator has run at [p] and left the
    host in [h]: its report is on standard output. *)
Definition after_save {H : Host} (w : world) (p : string) (h : host_state)
  : world :=
  {| w_cwd := w_cwd w; w_argv := w_argv w; w_environ := w_environ w;
     w_stdout := w_stdout w ++ save_report p (w_host w); w_host := h |}.

(** ** Calls, programs and their interpreter *)

(** The calls a script of this kind can make, indexed by what they return. *)
Inductive call {H : Host} : Type -> Type :=
| os_getcwd : call string
| bpy_ops_wm_save_as_mainfile (filepath : string) : call op_result
| print (s : string) : call unit
| sys_exit (code : Z) : call Empty_set.

(** A call as it appears in a trace. *)
Inductive event : Type :=
| EvGetcwd
| EvSaveAs (filepath : string)
| EvPrint (s : string)
| EvExit (code : Z).

Definition event_of {H : Host} {X : Type} (c : call X) : event :=
  match c with
  | os_getcwd => EvGetcwd
  | bpy_ops_wm_save_as_mainfile p => EvSaveAs p
  | print s => EvPrint s
  | sys_exit n => EvExit n
  end.

(** Programs: a result, or a call followed by the rest of the program. *)
Inductive prog {H : Host} (R : Type) : Type :=
| Ret (r : R)
| Vis (X : Type) (c : call X) (k : X -> prog R).

Arguments Ret {H R} r.
Arguments Vis {H R X} c k.

Fixpoint bind {H : Host} {A B : Type} (p : prog A) (f : A -> prog B) : prog B :=
  match p with
  | Ret a => f a
  | Vis c k => Vis c (fun x => bind (k x) f)
  end.

Definition perform {H : Host} {X : Type} (c : call X) : prog X :=
  Vis c (fun x => Ret x).

Notation "x <- p ;; q" := (bind p (fun x => q))
  (at level 61, p at next level, right associativity).
Notation "p ;; q" := (bind p (fun _ => q))
  (at level 61, right associativity).

(** One call against the world: its answer, or the exception it raises,
    and the world it leaves. *)
Definition handle {H : Host} {X : Type} (c : call X) (w : world)
  : (pyexn + X) * world :=
  match c in call X return (pyexn + X) * world with
  | os_getcwd => (inr (w_cwd w), w)
  | bpy_ops_wm_save_as_mainfile p =>
      match save_as_mainfile p (w_host w) with
      | (inl e, h) => (inl (HostError e), after_save w p h)
      | (inr r, h) => (inr r, after_save w p h)
      end
  | print s => (inr tt, set_stdout w (w_stdout w ++ s ++ Str.newline))
  | sys_exit n => (inl (SystemExit n), w)
  end.

(** The outcome of a run: the calls made, in order; the result or the
    exception that ended the run; the final world.  No handler is ever
    installed, so an exception ends the run where it is raised. *)
Record outcome {H : Host} (R : Type) : Type := mkOutcome {
  trace  : list event;
  result : pyexn + R;
  final  : world
}.

Fixpoint run {H : Host} {R : Type} (p : prog R) (w : world) : outcome R :=
  match p with
  | Ret r => {| trace := []; result := inr r; final := w |}
  | Vis c k =>
      match handle c w with
      | (inl e, w') =>
          {| trace := [event_of c]; result := inl e; final := w' |}
      | (inr x, w') =>
          let o := run (k x) w' in
          {| trace := event_of c :: trace o;
             result := result o; final := final o |}
      end
  end.

(** *** The runtime as a parameter *)

(** The faults of the runtime: whether [os.getcwd] raises, and whether
    [print] raises on a given text (argument and line feed). *)
Record runtime : Type := mkRuntime {
  getcwd_fault : option runtime_error;
  write_fault  : string -> option runtime_error
}.

(** The runtime that serves every call. *)
Definition reliable : runtime :=
  {| getcwd_fault := None; write_fault := fun _ => None |}.

(** One call on runtime [rt]: a fault raises and leaves the world as it
    is; otherwise the call does what [handle] says. *)
Definition handle_in {H : Host} (rt : runtime) {X : Type}
    (c : call X) (w : world) : (pyexn + X) * world :=
  match c in call X return (pyexn + X) * world with
  | os_getcwd =>
      match getcwd_fault rt with
      | Some e => (inl (Raised e), w)
      | None => handle os_getcwd w
      end
  | bpy_ops_wm_save_as_mainfile p => handle (bpy_ops_wm_save_as_mainfile p) w
  | print s =>
      match write_fault rt (s ++ Str.newline) with
      | Some e => (inl (Raised e), w)
      | None => handle (print s) w
      end
  | sys_exit n => handle (sys_exit n) w
  end.

Fixpoint run_in {H : Host} (rt : runtime) {R : Type}
    (p : prog R) (w : world) : outcome R :=
  match p with
  | Ret r => {| trace := []; result := inr r; final := w |}
  | Vis c k =>
      match handle_in rt c w with
      | (inl e, w') =>
          {| trace := [event_of c]; result := inl e; final := w' |}
      | (inr x, w') =>
          let o := run_in rt (k x) w' in
          {| trace := event_of c :: trace o;
             result := result o; final := final o |}
      end
  end.

(** ** The script *)

(** [filepath = os.path.join(os.getcwd(), "my_scene.blend")] *)
Definition filepath {H : Host} : prog string :=
  cwd <- perform os_getcwd ;;
  Ret (posixpath.join cwd "my_scene.blend").

(** The module body, statement by statement. *)
Definition init_blend {H : Host} : prog unit :=
  filepath <- filepath ;;
  perform (bpy_ops_wm_save_as_mainfile filepath) ;;
  perform (print ("Saved " ++ filepath)).

(** ** Reading a trace *)

(** The destinations handed to the host's save operator, in order. *)
Fixpoint saves (tr : list event) : list string :=
  match tr with
  | [] => []
  | EvSaveAs p :: r => p :: saves r
  | _ :: r => saves r
  end.

(** The arguments of the [print] calls, in order. *)
Fixpoint prints (tr : list event) : list string :=
  match tr with
  | [] => []
  | EvPrint s :: r => s :: prints r
  | _ :: r => prints r
  end.

(** The characters the [print] calls of a trace put on standard output. *)
Fixpoint written (tr : list event) : string :=
  match tr with
  | [] => ""
  | EvPrint s :: r => s ++ Str.newline ++ written r
  | _ :: r => written r
  end.

(** The exit requests of a trace. *)
Fixpoint exits (tr : list event) : list Z :=
  match tr with
  | [] => []
  | EvExit n :: r => n :: exits r
  | _ :: r => exits r
  end.

(** The host's top level: [SystemExit] shuts the host down; any other
    exception is reported and the host goes on, as it does after a script
    that ends normally. *)
Definition host_running_after {H : Host} {R : Type} (r : pyexn + R) : bool :=
  match r with
  | inl (SystemExit _) => false
  | inl (HostError _) => true
  | inl (Raised _) => true
  | inr _ => true
  end.

(** The destination the script computes in world [w], and the message it
    prints about it. *)
Definition destination {H : Host} (w : world) : string :=
  posixpath.join (w_cwd w) "my_scene.blend".

Definition confirmation {H : Host} (w : world) : string :=
  "Saved " ++ destination w.

(** ** A host small enough to run

    Used for the examples below: the open document is a text, the disk maps
    paths to contents, and saving to a locked path is refused.  The
    operator reports on standard output what it did. *)

Module Demo.

Record blender : Type := mkBlender {
  document : string;
  disk     : list (string * string);
  locked   : list string
}.

Inductive save_error : Type := PermissionDenied (path : string).

Inductive status : Type := FINISHED.

Definition save (p : string) (b : blender)
  : (save_error + status) * blender :=
  if existsb (String.eqb p) (locked b)
  then (inl (PermissionDenied p), b)
  else (inr FINISHED,
        {| document := document b;
           disk := (p, document b) :: disk b;
           locked := locked b |}).

Definition report (p : string) (b : blender) : string :=
  if existsb (String.eqb p) (locked b)
  then "Error: cannot write " ++ p ++ Str.newline
  else "Info: Saved as " ++ p ++ Str.newline.

#[global] Instance host : Host := {|
  host_state := blender;
  host_error := save_error;
  op_result := status;
  save_as_mainfile := save;
  save_report := report
|}.

Definition scene : blender :=
  {| document := "cube"; disk := []; locked := [] |}.

Definition start (cwd : string) (b : blender) : world :=
  {| w_cwd := cwd; w_argv := ["blender"]; w_environ := [];
     w_stdout := ""; w_host := b |}.

(** Launched from [/tmp/proj]. *)
Definition proj : world := start "/tmp/proj" scene.

(** The same, with flags, an environment and earlier output. *)
Definition proj_flags : world :=
  {| w_cwd := "/tmp/proj"; w_argv := ["blender"; "--background"];
     w_environ := [("HOME", "/root")];
     w_stdout := "Blender started" ++ Str.newline; w_host := scene |}.

(** Launched from [/tmp/proj], where the destination is locked. *)
Definition proj_locked : world :=
  start "/tmp/proj"
    {| document := "cube"; disk := [];
       locked := ["/tmp/proj/my_scene.blend"] |}.


(** Launched from a directory whose name is not ASCII. *)
Definition cafe_dir : string :=
  "/tmp/caf" ++ String (ascii_of_nat 233) EmptyString.
Definition cafe : world := start cafe_dir scene.

(** A runtime whose working directory has been removed. *)
Definition cwd_removed : runtime :=
  {| getcwd_fault := Some FileNotFoundError; write_fault := fun _ => None |}.

Fixpoint is_ascii (s : string) : bool :=
  match s with
  | EmptyString => true
  | String c r => Nat.ltb (nat_of_ascii c) 128 && is_ascii r
  end.

(** A runtime whose standard output is encoded in ASCII. *)
Definition ascii_stdout : runtime :=
  {| getcwd_fault := None;
     write_fault := fun s =>
       if is_ascii s then None else Some UnicodeEncodeError |}.

(** A script that does ask for an exit, for contrast. *)
Definition save_and_quit : prog unit :=
  init_blend ;;
  x <- perform (sys_exit 0) ;;
  match x : Empty_set with end.

End Demo.

(** ** Counting line feeds *)


(** ** Facts about strings and paths *)

Section Strings.

Lemma append_empty_r (s : string) : s ++ "" = s.
Proof. induction s as [|c s IH]; simpl; [reflexivity | now rewrite IH]. Qed.

Lemma append_assoc (a b c : string) : (a ++ b) ++ c = a ++ (b ++ c).
Proof. induction a as [|x a IH]; simpl; [reflexivity | now rewrite IH]. Qed.




Lemma startswith_app (a b p : string) :
  Str.startswith a p = true -> Str.startswith (a ++ b) p = true.
Proof.
  unfold Str.startswith. revert a.
  induction p as [|x p IH]; intros [|y a]; simpl; try easy.
  - now destruct b.
  - destruct (ascii_dec x y); [apply IH | easy].
Qed.

End Strings.

Module PathFacts.

Import posixpath.

(** Joining a file name that does not start with the separator. *)
Lemma join_filename (a : string) :
  join a "my_scene.blend" =
    if String.eqb a "" then "my_scene.blend"
    else if Str.endswith a "/" then a ++ "my_scene.blend"
    else a ++ "/my_scene.blend".
Proof. unfold join. simpl. now destruct (String.eqb a ""). Qed.

Lemma join_isabs (a b : string) :
  isabs a = true -> isabs (join a b) = true.
Proof.
  intros Ha. unfold join.
  destruct (Str.startswith b sep) eqn:Hb; simpl; [exact Hb|].
  destruct (String.eqb_spec a "") as [->|_]; [discriminate Ha|].
  destruct (Str.endswith a sep); now apply startswith_app.
Qed.


End PathFacts.

(** ** Facts about the interpreter, for every program *)

Section Interpreter.

Context {H : Host}.

(** Running [p] and then [f]: an exception in [p] ends the run, otherwise
    the traces follow one another. *)
Lemma run_bind (A B : Type) (p : prog A) (f : A -> prog B) (w : world) :
  run (bind p f) w =
    match result (run p w) with
    | inl e => {| trace := trace (run p w); result := inl e;
                  final := final (run p w) |}
    | inr a => let o := run (f a) (final (run p w)) in
               {| trace := trace (run p w) ++ trace o;
                  result := result o; final := final o |}
    end.
Proof.
  revert w. induction p as [a | X c k IH]; intros w; simpl.
  - now destruct (run (f a) w).
  - destruct (handle c w) as [[e | x] w']; simpl; [reflexivity|].
    rewrite IH. now destruct (result (run (k x) w')).
Qed.

(** No call changes the working directory, the arguments or the
    environment of the process. *)
Lemma handle_frame (X : Type) (c : call X) (w : world) :
  w_cwd (snd (handle c w)) = w_cwd w
  /\ w_argv (snd (handle c w)) = w_argv w
  /\ w_environ (snd (handle c w)) = w_environ w.
Proof.
  destruct c as [ | p | s | n]; simpl; auto.
  destruct (save_as_mainfile p (w_host w)) as [[e | r] h]; simpl; auto.
Qed.

Lemma run_frame (R : Type) (p : prog R) (w : world) :
  w_cwd (final (run p w)) = w_cwd w
  /\ w_argv (final (run p w)) = w_argv w
  /\ w_environ (final (run p w)) = w_environ w.
Proof.
  revert w. induction p as [r | X c k IH]; intros w; simpl; [auto|].
  pose proof (handle_frame c w) as Hc.
  destruct (handle c w) as [[e | x] w']; simpl in *; [exact Hc|].
  destruct (IH x w') as (I1 & I2 & I3), Hc as (C1 & C2 & C3).
  repeat split; congruence.
Qed.

(** Standard output only grows: what was on it stays, in front. *)
Lemma handle_stdout (X : Type) (c : call X) (w : world) :
  exists out : string, w_stdout (snd (handle c w)) = w_stdout w ++ out.
Proof.
  destruct c as [ | p | s | n]; simpl.
  - exists "". now rewrite append_empty_r.
  - exists (save_report p (w_host w)).
    now destruct (save_as_mainfile p (w_host w)) as [[e | r] h].
  - now exists (s ++ Str.newline).
  - exists "". now rewrite append_empty_r.
Qed.

Lemma run_stdout (R : Type) (p : prog R) (w : world) :
  exists out : string, w_stdout (final (run p w)) = w_stdout w ++ out.
Proof.
  revert w. induction p as [r | X c k IH]; intros w; simpl.
  - exists "". now rewrite append_empty_r.
  - destruct (handle_stdout c w) as [o1 H1].
    destruct (handle c w) as [[e | x] w']; simpl in *.
    + now exists o1.
    + destruct (IH x w') as [o2 H2]. exists (o1 ++ o2).
      now rewrite H2, H1, append_assoc.
Qed.

(** On the runtime without faults, [run_in] is [run]. *)
Lemma handle_in_reliable (X : Type) (c : call X) (w : world) :
  handle_in reliable c w = handle c w.
Proof. now destruct c. Qed.

Lemma run_in_reliable (R : Type) (p : prog R) (w : world) :
  run_in reliable p w = run p w.
Proof.
  revert w. induction p as [r | X c k IH]; intros w; simpl; [reflexivity|].
  rewrite handle_in_reliable.
  destruct (handle c w) as [[e | x] w']; [reflexivity|]. now rewrite IH.
Qed.

(** *** The script, run *)

(** What one run of the script does, by the answer of the host. *)
Lemma run_init_blend (w : world) :
  run init_blend w =
    match save_as_mainfile (destination w) (w_host w) with
    | (inl e, h) =>
        {| trace := [EvGetcwd; EvSaveAs (destination w)];
           result := inl (HostError e);
           final := after_save w (destination w) h |}
    | (inr _, h) =>
        {| trace := [EvGetcwd; EvSaveAs (destination w);
                     EvPrint (confirmation w)];
           result := inr tt;
           final := set_stdout (after_save w (destination w) h)
                      (w_stdout (after_save w (destination w) h)
                       ++ confirmation w ++ Str.newline) |}
    end.
Proof.
  unfold init_blend, filepath, confirmation, destination. simpl.
  destruct (save_as_mainfile _ (w_host w)) as [[e | r] h]; reflexivity.
Qed.

(** The same on any runtime: the run stops at the first of the three
    calls that raises. *)
Lemma run_in_init_blend (rt : runtime) (w : world) :
  run_in rt init_blend w =
    match getcwd_fault rt with
    | Some e =>
        {| trace := [EvGetcwd]; result := inl (Raised e); final := w |}
    | None =>
        match save_as_mainfile (destination w) (w_host w) with
        | (inl e, h) =>
            {| trace := [EvGetcwd; EvSaveAs (destination w)];
               result := inl (HostError e);
               final := after_save w (destination w) h |}
        | (inr _, h) =>
            match write_fault rt (confirmation w ++ Str.newline) with
            | Some e =>
                {| trace := [EvGetcwd; EvSaveAs (destination w);
                             EvPrint (confirmation w)];
                   result := inl (Raised e);
                   final := after_save w (destination w) h |}
            | None =>
                {| trace := [EvGetcwd; EvSaveAs (destination w);
                             EvPrint (confirmation w)];
                   result := inr tt;
                   final := set_stdout (after_save w (destination w) h)
                              (w_stdout (after_save w (destination w) h)
                               ++ confirmation w ++ Str.newline) |}
            end
        end
    end.
Proof.
  unfold init_blend, filepath, confirmation, destination. simpl.
  destruct (getcwd_fault rt) as [e0 | ]; [reflexivity|]. simpl.
  destruct (save_as_mainfile _ (w_host w)) as [[e | r] h]; [reflexivity|].
  simpl. now destruct (write_fault rt _).
Qed.

End Interpreter.

(** ** The claims *)

Unset Implicit Arguments.

(** C1. For every absolute working directory, the destination handed to the
    host is the path-join of that directory with [my_scene.blend] (the
    directory, a separator unless it already ends with one, the file name),
    and it is absolute; from [/tmp/proj] it is [/tmp/proj/my_scene.blend]. *)
Theorem C1_destination_is_join (H : Host) (w : world) :
  posixpath.isabs (w_cwd w) = true ->
  saves (trace (run init_blend w))
    = [posixpath.join (w_cwd w) "my_scene.blend"]
  /\ posixpath.join (w_cwd w) "my_scene.blend"
     = (if Str.endswith (w_cwd w) "/" then w_cwd w ++ "my_scene.blend"
        else w_cwd w ++ "/my_scene.blend")
  /\ posixpath.isabs (posixpath.join (w_cwd w) "my_scene.blend") = true
  /\ (w_cwd w = "/tmp/proj" ->
      saves (trace (run init_blend w)) = ["/tmp/proj/my_scene.blend"]).
Proof.
  intros Habs.
  assert (Hsaves : saves (trace (run init_blend w)) = [destination w]).
  { rewrite run_init_blend.
    destruct (save_as_mainfile _ (w_host w)) as [[e | r] h]; reflexivity. }
  repeat split.
  - exact Hsaves.
  - rewrite PathFacts.join_filename.
    destruct (String.eqb_spec (w_cwd w) "") as [E | _]; [|reflexivity].
    rewrite E in Habs. discriminate Habs.
  - now apply PathFacts.join_isabs.
  - intros E. rewrite Hsaves. unfold destination. now rewrite E.
Qed.

Lemma C1_witness :
  posixpath.isabs (w_cwd Demo.proj) = true
  /\ saves (trace (run init_blend Demo.proj)) = ["/tmp/proj/my_scene.blend"].
Proof.
  split; [reflexivity|].
  destruct (C1_destination_is_join Demo.host Demo.proj eq_refl)
    as (_ & _ & _ & Hproj).
  exact (Hproj eq_refl).
Defined.




(** C3. If the host's save raises, the script prints nothing: the trace
    holds no [print] call and the script has written no character to
    standard output. *)
Theorem C3_no_confirmation_on_failure (H : Host) (w : world)
    (e : host_error) (h : host_state) :
  save_as_mainfile (destination w) (w_host w) = (inl e, h) ->
  prints (trace (run init_blend w)) = []
  /\ written (trace (run init_blend w)) = "".
Proof.
  intros Hsave. rewrite run_init_blend, Hsave. split; reflexivity.
Qed.

Lemma C3_witness :
  save_as_mainfile (destination Demo.proj_locked) (w_host Demo.proj_locked)
    = (inl (Demo.PermissionDenied "/tmp/proj/my_scene.blend"),
       w_host Demo.proj_locked)
  /\ prints (trace (run init_blend Demo.proj_locked)) = []
  /\ written (trace (run init_blend Demo.proj_locked)) = "".
Proof.
  split; [reflexivity|].
  exact (C3_no_confirmation_on_failure Demo.host Demo.proj_locked _ _ eq_refl).
Defined.

(** A script that does call [sys.exit] stops the host: the observation
    used in C4 tells the two apart. *)
Example exit_request_stops_host :
  exits (trace (run Demo.save_and_quit Demo.proj)) = [0%Z]
  /\ host_running_after (result (run Demo.save_and_quit Demo.proj)) = false.
Proof. split; reflexivity. Qed.

(** C4. In every run, whether the save returns or raises, the script makes
    no exit request and the host is still running when the script is over. *)
Theorem C4_host_keeps_running (H : Host) (w : world) :
  exits (trace (run init_blend w)) = []
  /\ host_running_after (result (run init_blend w)) = true.
Proof.
  rewrite run_init_blend.
  destruct (save_as_mainfile _ (w_host w)) as [[e | r] h]; split; reflexivity.
Qed.

(** C5. An exception raised by the host's save leaves the script as it was
    raised: the run ends with that very exception, right after the one save
    call (no second attempt), and the script has printed nothing. *)
Theorem C5_failure_propagates (H : Host) (w : world)
    (e : host_error) (h : host_state) :
  save_as_mainfile (destination w) (w_host w) = (inl e, h) ->
  result (run init_blend w) = inl (HostError e)
  /\ trace (run init_blend w) = [EvGetcwd; EvSaveAs (destination w)]
  /\ saves (trace (run init_blend w)) = [destination w]
  /\ prints (trace (run init_blend w)) = []
  /\ written (trace (run init_blend w)) = "".
Proof.
  intros Hsave. rewrite run_init_blend, Hsave.
  split; [reflexivity|]. split; [reflexivity|]. split; [reflexivity|].
  split; reflexivity.
Qed.

Lemma C5_witness :
  save_as_mainfile (destination Demo.proj_locked) (w_host Demo.proj_locked)
    = (inl (Demo.PermissionDenied "/tmp/proj/my_scene.blend"),
       w_host Demo.proj_locked)
  /\ result (run init_blend Demo.proj_locked)
     = inl (HostError (Demo.PermissionDenied "/tmp/proj/my_scene.blend"))
  /\ length (saves (trace (run init_blend Demo.proj_locked))) = 1.
Proof.
  split; [reflexivity|].
  destruct (C5_failure_propagates Demo.host Demo.proj_locked _ _ eq_refl)
    as (Hres & _ & Hsaves & _).
  split; [exact Hres | now rewrite Hsaves].
Defined.

(** C6. In every run in which the save returns, the path inside the printed
    confirmation is the very string that was handed to the host's save:
    one destination is saved to, one message is printed, and the message is
    [Saved ] followed by that destination. *)
Theorem C6_printed_path_is_saved_path (H : Host) (w : world)
    (r : op_result) (h : host_state) :
  save_as_mainfile (destination w) (w_host w) = (inr r, h) ->
  exists p : string,
    saves (trace (run init_blend w)) = [p]
    /\ prints (trace (run init_blend w)) = ["Saved " ++ p]
    /\ (forall q s : string,
          In (EvSaveAs q) (trace (run init_blend w)) ->
          In (EvPrint s) (trace (run init_blend w)) ->
          s = "Saved " ++ q).
Proof.
  intros Hsave. exists (destination w).
  rewrite run_init_blend, Hsave. simpl. repeat split.
  intros q s [Hq | [Hq | [Hq | []]]] [Hs | [Hs | [Hs | []]]];
    try discriminate.
  injection Hq as <-. injection Hs as <-. reflexivity.
Qed.

Lemma C6_witness :
  save_as_mainfile (destination Demo.proj_flags) (w_host Demo.proj_flags)
    = (inr Demo.FINISHED,
       {| Demo.document := "cube";
          Demo.disk := [("/tmp/proj/my_scene.blend", "cube")];
          Demo.locked := [] |})
  /\ exists p : string,
       saves (trace (run init_blend Demo.proj_flags)) = [p]
       /\ prints (trace (run init_blend Demo.proj_flags)) = ["Saved " ++ p].
Proof.
  split; [reflexivity|].
  destruct (C6_printed_path_is_saved_path Demo.host Demo.proj_flags _ _ eq_refl)
    as (p & Hs & Hp & _).
  exists p. split; assumption.
Defined.

(** C7. The script is three calls in a row and nothing else: read the
    working directory, call the host's save with the joined path, print the
    confirmation.  Its trace is these three calls in this order when the
    save returns, and the first two when the save raises. *)
Theorem C7_straight_line (H : Host) (w : world) :
  init_blend
  = Vis os_getcwd (fun cwd =>
      Vis (bpy_ops_wm_save_as_mainfile (posixpath.join cwd "my_scene.blend"))
        (fun _ =>
           Vis (print ("Saved " ++ posixpath.join cwd "my_scene.blend"))
             (fun u => Ret u)))
  /\ trace (run init_blend w)
     = match fst (save_as_mainfile (destination w) (w_host w)) with
       | inr _ => [EvGetcwd; EvSaveAs (destination w);
                   EvPrint ("Saved " ++ destination w)]
       | inl _ => [EvGetcwd; EvSaveAs (destination w)]
       end.
Proof.
  split; [reflexivity|].
  rewrite run_init_blend.
  destruct (save_as_mainfile _ (w_host w)) as [[e | r] h]; reflexivity.
Qed.




(** C9. Two runs from the same working directory in which the save returns
    make the same calls with the same arguments: same destination, same
    printed line.  The hosts, the arguments, the environment and the earlier
    output of the two runs may differ at will. *)
Theorem C9_determined_by_cwd (H1 H2 : Host)
    (w1 : @world H1) (w2 : @world H2) :
  w_cwd w1 = w_cwd w2 ->
  result (run init_blend w1) = inr tt ->
  result (run init_blend w2) = inr tt ->
  trace (run init_blend w1) = trace (run init_blend w2)
  /\ saves (trace (run init_blend w1)) = saves (trace (run init_blend w2))
  /\ prints (trace (run init_blend w1)) = prints (trace (run init_blend w2))
  /\ written (trace (run init_blend w1)) = written (trace (run init_blend w2)).
Proof.
  intros Hcwd. rewrite !run_init_blend.
  unfold confirmation, destination. rewrite Hcwd.
  destruct (save_as_mainfile _ (w_host w1)) as [[e1 | r1] h1];
    destruct (save_as_mainfile _ (w_host w2)) as [[e2 | r2] h2];
    simpl; intros R1 R2; try discriminate; repeat split.
Qed.

Lemma C9_witness :
  w_cwd Demo.proj = w_cwd Demo.proj_flags
  /\ w_argv Demo.proj <> w_argv Demo.proj_flags
  /\ w_environ Demo.proj <> w_environ Demo.proj_flags
  /\ trace (run init_blend Demo.proj) = trace (run init_blend Demo.proj_flags).
Proof.
  split; [reflexivity|].
  split; [discriminate|].
  split; [discriminate|].
  exact (proj1 (C9_determined_by_cwd Demo.host Demo.host
                  Demo.proj Demo.proj_flags eq_refl eq_refl eq_refl)).
Defined.

(** C10, as the claim is written, fails: the host's save is not the only
    call of the script that can raise.  With the working directory removed
    the run ends in [os.getcwd], before any save; on a standard output
    encoded in ASCII, from a directory whose name is not ASCII, the save
    returns and the run ends in [print]. *)
Lemma C10_counterexample :
  (result (run_in Demo.cwd_removed init_blend Demo.proj)
   = inl (Raised FileNotFoundError)
   /\ saves (trace (run_in Demo.cwd_removed init_blend Demo.proj)) = [])
  /\ (fst (save_as_mainfile (destination Demo.cafe) (w_host Demo.cafe))
      = inr Demo.FINISHED
      /\ result (run_in Demo.ascii_stdout init_blend Demo.cafe)
         = inl (Raised UnicodeEncodeError)).
Proof. split; split; reflexivity. Qed.

(** C10, amended. For every working-directory string the path join and
    the message formatting are functions and cannot fail.  On any runtime a
    run ends with an exception exactly when one of the three calls of the
    script raises, and with that exception: [os.getcwd], the host's save,
    or [print], the first that does.  When [os.getcwd] answers and
    standard output takes the confirmation, the run gets as far as the save
    call with the destination computed, and the save is the only point
    where it can fail. *)
Theorem C10_only_save_can_fail (H : Host) (rt : runtime) (w : world) :
  result (run_in rt init_blend w)
  = match getcwd_fault rt with
    | Some e => inl (Raised e)
    | None =>
        match fst (save_as_mainfile (destination w) (w_host w)) with
        | inl e => inl (HostError e)
        | inr _ =>
            match write_fault rt
                    ("Saved " ++ posixpath.join (w_cwd w) "my_scene.blend"
                     ++ Str.newline) with
            | Some e => inl (Raised e)
            | None => inr tt
            end
        end
    end
  /\ (getcwd_fault rt = None ->
      write_fault rt
        ("Saved " ++ posixpath.join (w_cwd w) "my_scene.blend"
         ++ Str.newline) = None ->
      (exists rest : list event,
          trace (run_in rt init_blend w)
          = EvGetcwd
              :: EvSaveAs (posixpath.join (w_cwd w) "my_scene.blend")
              :: rest)
      /\ match fst (save_as_mainfile (destination w) (w_host w)) with
         | inr _ => result (run_in rt init_blend w) = inr tt
         | inl e => result (run_in rt init_blend w) = inl (HostError e)
         end).
Proof.
  rewrite run_in_init_blend.
  change (confirmation w ++ Str.newline)
    with ("Saved " ++ posixpath.join (w_cwd w) "my_scene.blend"
          ++ Str.newline).
  split.
  - destruct (getcwd_fault rt) as [e0 | ]; [reflexivity|].
    destruct (save_as_mainfile _ (w_host w)) as [[e | r] h]; [reflexivity|].
    simpl. now destruct (write_fault rt _).
  - intros Hcwd Hout. rewrite Hcwd, Hout.
    destruct (save_as_mainfile _ (w_host w)) as [[e | r] h]; simpl;
      (split; [ eexists; reflexivity | reflexivity ]).
Qed.

Lemma C10_witness :
  getcwd_fault Demo.ascii_stdout = None
  /\ write_fault Demo.ascii_stdout
       ("Saved " ++ posixpath.join (w_cwd Demo.proj) "my_scene.blend"
        ++ Str.newline) = None
  /\ result (run_in Demo.ascii_stdout init_blend Demo.proj) = inr tt
  /\ result (run_in Demo.ascii_stdout init_blend Demo.proj_locked)
     = inl (HostError (Demo.PermissionDenied "/tmp/proj/my_scene.blend")).
Proof.
  split; [reflexivity|]. split; [reflexivity|].
  split.
  - exact (proj2 (proj2 (C10_only_save_can_fail Demo.host Demo.ascii_stdout
                           Demo.proj) eq_refl eq_refl)).
  - exact (proj2 (proj2 (C10_only_save_can_fail Demo.host Demo.ascii_stdout
                           Demo.proj_locked) eq_refl eq_refl)).
Defined.

(** ** More about the destination and the confirmation

    What line 2 and line 4 of the script do for every working-directory
    string, the odd ones included: empty, relative, closed by a separator,
    holding line feeds. *)

Section MoreStrings.

Lemma length_append (a b : string) :
  String.length (a ++ b) = String.length a + String.length b.
Proof. induction a as [|x a IH]; simpl; [reflexivity | now rewrite IH]. Qed.

Lemma append_inv_head (a x y : string) : a ++ x = a ++ y -> x = y.
Proof.
  induction a as [|c a IH]; simpl; intros E; [exact E|].
  injection E as E. now apply IH.
Qed.

Lemma append_inv_tail (s a b : string) : a ++ s = b ++ s -> a = b.
Proof.
  revert b. induction a as [|x a IH]; intros [|y b] E; simpl in E.
  - reflexivity.
  - apply (f_equal String.length) in E. simpl in E.
    rewrite length_append in E. lia.
  - apply (f_equal String.length) in E. simpl in E.
    rewrite length_append in E. lia.
  - injection E as -> E. f_equal. now apply IH.
Qed.

Lemma startswith_self_app (a b : string) : Str.startswith (a ++ b) a = true.
Proof.
  unfold Str.startswith. induction a as [|x a IH]; simpl.
  - now destruct b.
  - destruct (ascii_dec x x) as [_ | N]; [exact IH | now elim N].
Qed.

Lemma endswith_self (b : string) : Str.endswith b b = true.
Proof. destruct b; simpl; now rewrite ?String.eqb_refl, ?Ascii.eqb_refl. Qed.

Lemma endswith_cons (x : ascii) (s p : string) :
  Str.endswith (String x s) p
  = if String.eqb (String x s) p then true else Str.endswith s p.
Proof. reflexivity. Qed.

Lemma endswith_app (a b : string) : Str.endswith (a ++ b) b = true.
Proof.
  induction a as [|x a IH].
  - apply endswith_self.
  - cbn [append]. rewrite endswith_cons.
    destruct (String.eqb (String x (a ++ b)) b); [reflexivity | exact IH].
Qed.

Lemma startswith_nonempty_app (a b : string) :
  a <> "" -> Str.startswith (a ++ b) "/" = Str.startswith a "/".
Proof.
  destruct a as [|x a]; intros N; [now elim N|].
  unfold Str.startswith. cbn [append prefix].
  destruct (ascii_dec "/" x); [|reflexivity].
  now destruct (a ++ b), a.
Qed.



End MoreStrings.

(** X1. Whatever the working directory, the destination starts with it and
    ends with the file name: the document is written inside the working
    directory, under the name [my_scene.blend], with at most one character
    (the separator) between the two. *)
Theorem X1_destination_inside_cwd (H : Host) (w : world) :
  Str.startswith (destination w) (w_cwd w) = true
  /\ Str.endswith (destination w) "my_scene.blend" = true
  /\ String.length (w_cwd w) + 14 <= String.length (destination w)
     <= String.length (w_cwd w) + 15.
Proof.
  unfold destination. rewrite PathFacts.join_filename.
  destruct (String.eqb_spec (w_cwd w) "") as [E | N].
  - rewrite E. repeat split; simpl; lia.
  - destruct (Str.endswith (w_cwd w) "/").
    + repeat split.
      * apply startswith_self_app.
      * apply endswith_app.
      * rewrite length_append. simpl. lia.
      * rewrite length_append. simpl. lia.
    + repeat split.
      * apply startswith_self_app.
      * pose proof (endswith_app (w_cwd w ++ "/") "my_scene.blend") as E.
        rewrite append_assoc in E. exact E.
      * rewrite length_append. simpl. lia.
      * rewrite length_append. simpl. lia.
Qed.

(** X2. The destination is the working directory, a separator and the
    file name exactly when the working directory is not empty and does not
    already end with a separator; from the root [/] the destination is
    [/my_scene.blend], with one separator, and from the empty string it is
    the bare file name. *)
Theorem X2_separator_inserted_iff (H : Host) (w : world) :
  destination w = w_cwd w ++ "/my_scene.blend"
  <-> (w_cwd w <> "" /\ Str.endswith (w_cwd w) "/" = false).
Proof.
  unfold destination. rewrite PathFacts.join_filename.
  destruct (String.eqb_spec (w_cwd w) "") as [E | N].
  - rewrite E. simpl. split; [discriminate | now intros [N _]].
  - destruct (Str.endswith (w_cwd w) "/").
    + split; [|now intros [_ F]].
      intros E. apply append_inv_head in E. discriminate E.
    + split; [now split | reflexivity].
Qed.

Lemma X2_witness :
  destination (Demo.start "/" Demo.scene) = "/my_scene.blend"
  /\ destination (Demo.start "/" Demo.scene) <> "/" ++ "/my_scene.blend"
  /\ destination Demo.proj = "/tmp/proj" ++ "/my_scene.blend".
Proof.
  split; [reflexivity|]. split.
  - intros E.
    apply (proj1 (X2_separator_inserted_iff Demo.host
                    (Demo.start "/" Demo.scene))) in E.
    destruct E as [_ E]. discriminate E.
  - apply (proj2 (X2_separator_inserted_iff Demo.host Demo.proj)).
    split; [discriminate | reflexivity].
Defined.

(** Two working directories that differ only by a closing separator do
    share a destination: the condition of X3 is needed. *)
Example closing_separator_collides :
  destination (Demo.start "/x" Demo.scene)
  = destination (Demo.start "/x/" Demo.scene).
Proof. reflexivity. Qed.

(** X3. Working directories that do not end with a separator (as the ones
    [os.getcwd] reports, the root apart) never share a destination: equal
    destinations come from equal working directories. *)
Theorem X3_destination_injective (H1 H2 : Host)
    (w1 : @world H1) (w2 : @world H2) :
  Str.endswith (w_cwd w1) "/" = false ->
  Str.endswith (w_cwd w2) "/" = false ->
  destination w1 = destination w2 ->
  w_cwd w1 = w_cwd w2.
Proof.
  unfold destination. rewrite !PathFacts.join_filename.
  intros E1 E2. rewrite E1, E2.
  destruct (String.eqb_spec (w_cwd w1) "") as [A1 | N1];
    destruct (String.eqb_spec (w_cwd w2) "") as [A2 | N2].
  - congruence.
  - intros E. exfalso.
    assert (E' : "" = w_cwd w2 ++ "/").
    { apply (append_inv_tail "my_scene.blend").
      rewrite append_assoc. exact E. }
    destruct (w_cwd w2); discriminate E'.
  - intros E. exfalso.
    assert (E' : "" = w_cwd w1 ++ "/").
    { apply (append_inv_tail "my_scene.blend").
      rewrite append_assoc. symmetry. exact E. }
    destruct (w_cwd w1); discriminate E'.
  - intros E. now apply append_inv_tail in E.
Qed.

Lemma X3_witness :
  Str.endswith (w_cwd Demo.proj) "/" = false
  /\ Str.endswith (w_cwd Demo.proj_flags) "/" = false
  /\ destination Demo.proj = destination Demo.proj_flags
  /\ w_cwd Demo.proj = w_cwd Demo.proj_flags.
Proof.
  split; [reflexivity|]. split; [reflexivity|]. split; [reflexivity|].
  exact (X3_destination_injective Demo.host Demo.host
           Demo.proj Demo.proj_flags eq_refl eq_refl eq_refl).
Defined.

(** X4. The destination is absolute exactly when the working directory is:
    a relative or empty working directory yields a relative destination. *)
Theorem X4_destination_absolute_iff (H : Host) (w : world) :
  posixpath.isabs (destination w) = posixpath.isabs (w_cwd w).
Proof.
  unfold destination, posixpath.isabs. rewrite PathFacts.join_filename.
  destruct (String.eqb_spec (w_cwd w) "") as [E | N].
  - now rewrite E.
  - destruct (Str.endswith (w_cwd w) "/");
      now apply startswith_nonempty_app.
Qed.


